(** * A shallow embedding of [PortisProvider] (src/src/provider.ts)

    The provider relays JSON-RPC payloads to the Portis iframe through
    [postMessage] and correlates the answers through the [requests] object.
    The model keeps the fields of the class as a record [St] and threads it
    through a small state-and-exception monad [M]: a JavaScript [throw]
    aborts the rest of the handler while every mutation done before it
    persists, exactly as in the source.

    Effects that leave the class (posting to the iframe, invoking a user
    callback, showing or hiding the wrapper) are appended to the [log]
    field, in the order the source performs them.  User callbacks are
    modelled as opaque names whose invocation is recorded; they are assumed
    not to re-enter the provider.  Property keys of the [requests] object
    are JavaScript strings: ids are converted with [to_key], the [ToString]
    conversion of the value; the prototype chain of the object literal is
    not modelled (a key is present iff it was assigned). *)

From Stdlib Require Import ZArith List String Bool.
#[local] Set Warnings "-register-all".
From stdpp Require Import base gmap strings pretty list.
Import ListNotations.
Open Scope string_scope.

(** ** JavaScript values carried by payloads and responses *)

Inductive JVal :=
| JUndef
| JNull
| JBool (b : bool)
| JNum (n : Z)
| JStr (s : string)
| JArr (xs : list JVal).

(** JavaScript truthiness. *)
Definition truthy (v : JVal) : bool :=
  match v with
  | JUndef | JNull => false
  | JBool b => b
  | JNum n => negb (Z.eqb n 0)
  | JStr s => negb (String.eqb s "")
  | JArr _ => true
  end.

(** [ToString] of a value used as a property key ([obj[id]]). *)
Fixpoint to_key (v : JVal) : string :=
  match v with
  | JUndef => "undefined"
  | JNull => "null"
  | JBool true => "true"
  | JBool false => "false"
  | JNum n => pretty n
  | JStr s => s
  | JArr xs =>
      (fix go (xs : list JVal) : string :=
         match xs with
         | [] => ""
         | x :: rest =>
             let e := match x with JUndef | JNull => "" | _ => to_key x end in
             match rest with
             | [] => e
             | _ => e ++ "," ++ go rest
             end
         end) xs
  end.

(** ** The data of the class *)

(** [Payload] (JSON-RPC request). *)
Record Payload := mkPayload {
  pid : JVal;
  jsonrpc : string;
  method : string;
  params : list JVal
}.

(** Callbacks: a caller-supplied function, or the identity [(_) => _]
    that [send] passes for [eth_uninstallFilter]. *)
Inductive Cb :=
| CbUser (n : nat)
| CbIdentity.

(** [{ payload, cb }], the element type of [queue] and of [requests]. *)
Record Item := mkItem {
  payload : Payload;
  cb : Cb
}.

(** [evt.data.response] *)
Record Resp := mkResp {
  rid : JVal;
  rresult : JVal;
  raddress : JVal
}.

(** An inbound [MessageEvent]: [evt.origin], [evt.data.msgType] and
    [evt.data.response] ([None] when absent). *)
Record Msg := mkMsg {
  origin : string;
  msgType : string;
  response : option Resp
}.

(** [{ eventName, callback }] *)
Record Sub := mkSub {
  eventName : string;
  callback : Cb
}.

(** [this.referrerAppOptions] *)
Record AppOptions := mkAppOptions {
  ao_sdkVersion : string;
  ao_network : string;
  ao_apiKey : option string;
  ao_infuraApiKey : option string;
  ao_providerNodeUrl : option string
}.

(** Observable effects, in the order they happen. *)
Inductive Ev :=
| EvCreateIframe (o : AppOptions)          (* this.createIframe() *)
| EvPost (msgType : string) (p : Payload)  (* this.sendPostMessage(msgType, p) *)
| EvCb (f : Cb) (err : option string) (resp : option Resp)
                                           (* f(err, resp) *)
| EvLogin (f : Cb) (provider : string) (address : JVal)
                                           (* f({ provider, address }) *)
| EvShow                                   (* this.showIframe() *)
| EvHide.                                  (* this.hideIframe() *)

(** The fields of [PortisProvider] that the protocol reads or writes. *)
Record St := mkSt {
  requests : gmap string Item;
  queue : list Item;
  iframeReady : bool;
  account : JVal;
  network : JVal;
  events : list Sub;
  log : list Ev
}.

Definition set_requests (r : gmap string Item) (s : St) : St :=
  mkSt r (queue s) (iframeReady s) (account s) (network s) (events s) (log s).
Definition set_queue (q : list Item) (s : St) : St :=
  mkSt (requests s) q (iframeReady s) (account s) (network s) (events s) (log s).
Definition set_iframeReady (b : bool) (s : St) : St :=
  mkSt (requests s) (queue s) b (account s) (network s) (events s) (log s).
Definition set_account (a : JVal) (s : St) : St :=
  mkSt (requests s) (queue s) (iframeReady s) a (network s) (events s) (log s).
Definition set_network (n : JVal) (s : St) : St :=
  mkSt (requests s) (queue s) (iframeReady s) (account s) n (events s) (log s).
Definition set_events (e : list Sub) (s : St) : St :=
  mkSt (requests s) (queue s) (iframeReady s) (account s) (network s) e (log s).
Definition add_log (e : Ev) (s : St) : St :=
  mkSt (requests s) (queue s) (iframeReady s) (account s) (network s) (events s)
       (log s ++ [e]).

(** ** A state and exception monad *)

Definition M (A : Type) : Type := St -> St * (A + string).

Definition ret {A} (a : A) : M A := fun s => (s, inl a).
Definition bind {A B} (m : M A) (k : A -> M B) : M B :=
  fun s => match m s with
           | (s', inl a) => k a s'
           | (s', inr e) => (s', inr e)
           end.
Definition throw {A} (e : string) : M A := fun s => (s, inr e).
Definition get : M St := fun s => (s, inl s).
Definition modify (f : St -> St) : M unit := fun s => (f s, inl tt).

Notation "'let!' x := m 'in' k" := (bind m (fun x => k))
  (at level 200, x name, m at level 100, k at level 200).
Notation "m ;; k" := (bind m (fun _ => k))
  (at level 100, k at level 200, right associativity).

Fixpoint forEach {A} (f : A -> M unit) (xs : list A) : M unit :=
  match xs with
  | [] => ret tt
  | x :: rest => f x ;; forEach f rest
  end.

Definition emit (e : Ev) : M unit := modify (add_log e).

(** ** Constants *)

Definition portisClient : string := "https://app.portis.io".
Definition sdkVersion : string := "1.2.9".
Definition PT_RESPONSE := "PT_RESPONSE".
Definition PT_HANDLE_REQUEST := "PT_HANDLE_REQUEST".
Definition PT_GREEN_LIGHT := "PT_GREEN_LIGHT".
Definition PT_SHOW_IFRAME := "PT_SHOW_IFRAME".
Definition PT_HIDE_IFRAME := "PT_HIDE_IFRAME".
Definition PT_USER_DENIED := "PT_USER_DENIED".
Definition PT_USER_LOGGED_IN := "PT_USER_LOGGED_IN".
Definition denied_msg := "User denied transaction signature.".
Definition type_error := "TypeError".

(** ** Queue and correlator *)

(** [this.sendPostMessage(msgType, payload)]: the post itself waits on
    [this.elements]; its issue, in call order, is what is recorded. *)
Definition sendPostMessage (t : string) (p : Payload) : M unit :=
  emit (EvPost t p).

(** [cb(err, resp)] *)
Definition invoke (f : Cb) (err : option string) (resp : option Resp) : M unit :=
  emit (EvCb f err resp).

(** One round of [dequeue]: shift the head, post it, register it, recurse.
    The recursion is bounded by the length of the queue read on entry,
    which the body shortens by one at every round. *)
Fixpoint dequeue_fuel (n : nat) : M unit :=
  match n with
  | O => ret tt
  | S n' =>
      let! s := get in
      match queue s with
      | [] => ret tt
      | item :: rest =>
          modify (set_queue rest) ;;
          sendPostMessage PT_HANDLE_REQUEST (payload item) ;;
          modify (fun s => set_requests
                    (<[to_key (pid (payload item)) := item]> (requests s)) s) ;;
          dequeue_fuel n'
      end
  end.

Definition dequeue : M unit :=
  let! s := get in dequeue_fuel (S (length (queue s))).

Definition enqueue (p : Payload) (f : Cb) : M unit :=
  modify (fun s => set_queue (queue s ++ [mkItem p f]) s) ;;
  let! s := get in
  if iframeReady s then dequeue else ret tt.

Definition sendAsync (p : Payload) (f : Cb) : M unit := enqueue p f.

(** ** The message listener *)

(** [this.requests[id]] followed by a property read: [undefined.cb]
    raises a [TypeError]. *)
Definition request_entry (id : JVal) : M Item :=
  let! s := get in
  match requests s !! to_key id with
  | Some e => ret e
  | None => throw type_error
  end.

(** [evt.data.response], read for one of its properties. *)
Definition the_response (m : Msg) : M Resp :=
  match response m with
  | Some r => ret r
  | None => throw type_error
  end.

(** [v[0]]; [None] when it raises: [null[0]] and [undefined[0]] are
    [TypeError]s. *)
Definition elem0 (v : JVal) : option JVal :=
  match v with
  | JUndef | JNull => None
  | JArr (x :: _) => Some x
  | JArr [] => Some JUndef
  | JStr (String c _) => Some (JStr (String c EmptyString))
  | JStr EmptyString => Some JUndef
  | JBool _ | JNum _ => Some JUndef
  end.

Definition index0 (v : JVal) : M JVal :=
  match elem0 v with
  | Some x => ret x
  | None => throw type_error
  end.

Definition on_green_light : M unit :=
  modify (set_iframeReady true) ;; dequeue.

(** The [PT_RESPONSE] case.  The source reads [this.requests[id]] three
    times; callbacks do not touch [requests], so the three reads agree. *)
Definition on_response (m : Msg) : M unit :=
  let! r := the_response m in
  let id := rid r in
  let! e := request_entry id in
  invoke (cb e) None (Some r) ;;
  (if String.eqb (method (payload e)) "eth_accounts"
      || String.eqb (method (payload e)) "eth_coinbase"
   then let! a := index0 (rresult r) in modify (set_account a)
   else ret tt) ;;
  (if String.eqb (method (payload e)) "net_version"
   then modify (set_network (rresult r))
   else ret tt) ;;
  dequeue.

(** The [PT_USER_DENIED] case. *)
Definition on_user_denied (m : Msg) : M unit :=
  let id := match response m with Some r => rid r | None => JNull end in
  (if truthy id
   then let! e := request_entry id in invoke (cb e) (Some denied_msg) None
   else let! s := get in
        forEach (fun item => invoke (cb item) (Some denied_msg) None) (queue s)) ;;
  dequeue.

(** The [PT_USER_LOGGED_IN] case: [evt.data.response.address] is read once
    per matching subscriber. *)
Definition on_logged_in (m : Msg) : M unit :=
  let! s := get in
  forEach (fun sub =>
             let! r := the_response m in
             emit (EvLogin (callback sub) "portis" (raddress r)))
          (filter (fun sub => String.eqb (eventName sub) "login") (events s)).

(** The listener installed by [listen()]. *)
Definition listen (m : Msg) : M unit :=
  if String.eqb (origin m) portisClient then
    if String.eqb (msgType m) PT_GREEN_LIGHT then on_green_light
    else if String.eqb (msgType m) PT_RESPONSE then on_response m
    else if String.eqb (msgType m) PT_SHOW_IFRAME then emit EvShow
    else if String.eqb (msgType m) PT_HIDE_IFRAME then emit EvHide
    else if String.eqb (msgType m) PT_USER_DENIED then on_user_denied m
    else if String.eqb (msgType m) PT_USER_LOGGED_IN then on_logged_in m
    else ret tt
  else ret tt.

(** ** The synchronous [send] *)

Record SyncResult := mkSyncResult {
  sr_id : JVal;
  sr_jsonrpc : string;
  sr_result : JVal
}.

Definition unsupported_msg (meth : string) : string :=
  "The Portis Web3 object does not support synchronous methods like "
    ++ meth ++ " without a callback parameter.".

Definition send (p : Payload) : M SyncResult :=
  let! result :=
    (if String.eqb (method p) "eth_accounts" then
       let! s := get in
       ret (if truthy (account s) then JArr [account s] else JArr [])
     else if String.eqb (method p) "eth_coinbase" then
       let! s := get in ret (account s)
     else if String.eqb (method p) "net_version" then
       let! s := get in ret (network s)
     else if String.eqb (method p) "eth_uninstallFilter" then
       sendAsync p CbIdentity ;; ret (JBool true)
     else throw (unsupported_msg (method p))) in
  ret (mkSyncResult (pid p) (jsonrpc p) result).

(** ** Subscriptions and out-of-band payloads *)

(** [on(eventName, callback)] *)
Definition on (name : string) (f : Cb) : M unit :=
  modify (fun s => set_events (events s ++ [mkSub name f]) s).

Definition SET_DEFAULT_EMAIL := "SET_DEFAULT_EMAIL".
Definition SHOW_PORTIS := "SHOW_PORTIS".

(** [sendGenericPayload(method, params, callback)]; the id produced by
    [randomId()] (from ./utils, not part of src/) is an input. *)
Definition sendGenericPayload (id : JVal) (meth : string) (ps : list JVal) (f : Cb)
  : M unit :=
  enqueue (mkPayload id "2.0" meth ps) f.

(** [setDefaultEmail(email)]: the default callback is [_ => _]. *)
Definition setDefaultEmail (id : JVal) (email : string) : M unit :=
  sendGenericPayload id SET_DEFAULT_EMAIL [JStr email] CbIdentity.

(** [showPortis(callback)] *)
Definition showPortis (id : JVal) (f : Cb) : M unit :=
  sendGenericPayload id SHOW_PORTIS [] f.

(** ** The constructor *)

(** Constructor options; an absent option is [None]. *)
Record Opts := mkOpts {
  apiKey : option string;
  opt_network : option string;
  infuraApiKey : option string;
  providerNodeUrl : option string
}.

(** Truthiness of a [string | undefined] option. *)
Definition truthy_opt (o : option string) : bool :=
  match o with
  | Some s => negb (String.eqb s "")
  | None => false
  end.

Inductive ConfigError :=
| ErrApiKeyMissing
| ErrBothNodeOptions.

Definition initial_state (o : AppOptions) : St :=
  mkSt ∅ [] false JNull JNull [] [EvCreateIframe o].

(** [new PortisProvider(opts)]; [isLocalhost()] (from ./utils, not part
    of src/) is an input of the model. *)
Definition construct (isLocalhost : bool) (opts : Opts) : ConfigError + St :=
  if negb isLocalhost && negb (truthy_opt (apiKey opts)) then inl ErrApiKeyMissing
  else if truthy_opt (infuraApiKey opts) && truthy_opt (providerNodeUrl opts)
  then inl ErrBothNodeOptions
  else inr (initial_state
              (mkAppOptions sdkVersion
                 (if truthy_opt (opt_network opts) then
                    match opt_network opts with Some n => n | None => "mainnet" end
                  else "mainnet")
                 (apiKey opts) (infuraApiKey opts) (providerNodeUrl opts))).

(** ** Running a batch of enqueues *)

Definition enqueue_all (items : list Item) : M unit :=
  forEach (fun it => enqueue (payload it) (cb it)) items.

(** ** What a full drain does *)

Definition key_of (it : Item) : string := to_key (pid (payload it)).

Definition post_of (it : Item) : Ev := EvPost PT_HANDLE_REQUEST (payload it).

(** Registration of a list of items, in order: a later item replaces an
    earlier one with the same key. *)
Fixpoint register_all (q : list Item) (r : gmap string Item) : gmap string Item :=
  match q with
  | [] => r
  | it :: rest => register_all rest (<[key_of it := it]> r)
  end.

(** The state after the whole queue has been posted and registered. *)
Definition drained (s : St) : St :=
  mkSt (register_all (queue s) (requests s)) [] (iframeReady s)
       (account s) (network s) (events s) (log s ++ map post_of (queue s)).

(** A denial delivered to every queued item. *)
Definition deny_ev (it : Item) : Ev := EvCb (cb it) (Some denied_msg) None.

(** ** Small runs of the model *)

Definition pay (n : Z) (meth : string) : Payload :=
  mkPayload (JNum n) "2.0" meth [].

Definition s_empty : St := mkSt ∅ [] false JNull JNull [] [].

Definition from_portis (t : string) (r : option Resp) : Msg :=
  mkMsg portisClient t r.

Example ex_key_num : to_key (JNum 42) = "42".
Proof. reflexivity. Qed.

Example ex_key_arr : to_key (JArr [JNum 1; JNull; JStr "a"]) = "1,,a".
Proof. reflexivity. Qed.

(** The spec's scenario: [eth_accounts] queued before readiness, then the
    green light, then the response. *)
Example ex_accounts_scenario :
  let s1 := fst (enqueue (pay 1 "eth_accounts") (CbUser 1) s_empty) in
  let s2 := fst (listen (from_portis PT_GREEN_LIGHT None) s1) in
  let r := mkResp (JNum 1) (JArr [JStr "0xabc"]) JUndef in
  let s3 := fst (listen (from_portis PT_RESPONSE (Some r)) s2) in
  log s2 = [EvPost PT_HANDLE_REQUEST (pay 1 "eth_accounts")] /\
  log s3 = [EvPost PT_HANDLE_REQUEST (pay 1 "eth_accounts");
            EvCb (CbUser 1) None (Some r)] /\
  snd (send (pay 2 "eth_accounts") s3)
  = inl (mkSyncResult (JNum 2) "2.0" (JArr [JStr "0xabc"])).
Proof. repeat split; reflexivity. Qed.

(** ** The drain lemma *)

Lemma dequeue_fuel_drained (n : nat) (s : St) :
  length (queue s) < n -> dequeue_fuel n s = (drained s, inl tt).
Proof.
  revert s. induction n as [|n IH]; intros [r q rdy a nw ev lg] Hlen; simpl in Hlen |- *.
  - lia.
  - destruct q as [|it rest].
    + unfold ret, drained. simpl. by rewrite app_nil_r.
    + unfold bind, get, modify, sendPostMessage, emit. simpl.
      rewrite IH; [|simpl in Hlen |- *; lia].
      unfold drained. simpl. by rewrite <- app_assoc.
Qed.

Lemma dequeue_drained (s : St) : dequeue s = (drained s, inl tt).
Proof.
  unfold dequeue, bind, get. apply dequeue_fuel_drained. lia.
Qed.


(** ** Relations preserved by computations *)

Section Preserve.
Variable R : St -> St -> Prop.
Hypothesis R_refl : forall s, R s s.
Hypothesis R_trans : forall a b c, R a b -> R b c -> R a c.

Definition preserves {A} (m : M A) : Prop := forall s, R s (fst (m s)).

Lemma preserves_ret {A} (a : A) : preserves (ret a).
Proof. intros s. apply R_refl. Qed.

Lemma preserves_throw {A} (e : string) : preserves (A:=A) (throw e).
Proof. intros s. apply R_refl. Qed.

Lemma preserves_get : preserves get.
Proof. intros s. apply R_refl. Qed.

Lemma preserves_modify (f : St -> St) :
  (forall s, R s (f s)) -> preserves (modify f).
Proof. intros Hf s. apply Hf. Qed.

Lemma preserves_bind {A B} (m : M A) (k : A -> M B) :
  preserves m -> (forall a, preserves (k a)) -> preserves (bind m k).
Proof.
  intros Hm Hk s. unfold bind. specialize (Hm s).
  destruct (m s) as [s1 [a|e]]; simpl in *; [|exact Hm].
  eapply R_trans; [exact Hm | apply Hk].
Qed.

Lemma preserves_forEach {A} (f : A -> M unit) (xs : list A) :
  (forall x, preserves (f x)) -> preserves (forEach f xs).
Proof.
  intros Hf. induction xs as [|x xs IH]; simpl.
  - apply preserves_ret.
  - apply preserves_bind; [apply Hf | intros _; exact IH].
Qed.
End Preserve.

(** Keys of [requests] are never lost. *)
Definition keeps_keys (s s' : St) : Prop :=
  forall k, is_Some (requests s !! k) -> is_Some (requests s' !! k).

Lemma keeps_keys_refl s : keeps_keys s s.
Proof. intros k H. exact H. Qed.

Lemma keeps_keys_trans a b c : keeps_keys a b -> keeps_keys b c -> keeps_keys a c.
Proof. intros H1 H2 k H. apply H2, H1, H. Qed.

Lemma register_all_keeps (q : list Item) (r : gmap string Item) k :
  is_Some (r !! k) -> is_Some (register_all q r !! k).
Proof.
  revert r. induction q as [|it q IH]; intros r H; simpl; [exact H|].
  apply IH. destruct (decide (key_of it = k)) as [->|Hne].
  - rewrite lookup_insert_eq. eauto.
  - rewrite lookup_insert_ne by exact Hne. exact H.
Qed.



(** ** C6: the origin check *)

(** Claim C6: a message whose origin is not exactly (string equality)
    [https://app.portis.io] is ignored: the state (including the log of
    posts and callback invocations) is unchanged and no exception is
    raised, whatever its type and payload. *)
Theorem listen_foreign_origin_ignored (m : Msg) (s : St) :
  origin m <> portisClient -> listen m s = (s, inl tt).
Proof.
  intros H. unfold listen.
  destruct (String.eqb_spec (origin m) portisClient) as [E|_].
  - contradiction.
  - reflexivity.
Qed.

Lemma listen_foreign_origin_ignored_witness :
  "https://app.portis.io.evil.com" <> portisClient /\
  listen (mkMsg "https://app.portis.io.evil.com" PT_USER_DENIED None) s_empty
  = (s_empty, inl tt).
Proof.
  split.
  - unfold portisClient. discriminate.
  - apply (listen_foreign_origin_ignored
             (mkMsg "https://app.portis.io.evil.com" PT_USER_DENIED None) s_empty).
    unfold portisClient. simpl. discriminate.
Defined.

(** ** C1: response with an unknown id *)

(** Claim C1 (as amended): a [PT_RESPONSE] from the Portis origin whose id
    is not a key of [requests] (or that carries no response object) raises
    a [TypeError] before any mutation: the state is unchanged, no callback
    runs and the queue is not drained, but the exception escapes the
    listener instead of being silently ignored. *)
Theorem listen_unknown_response_throws (m : Msg) (s : St) :
  origin m = portisClient ->
  msgType m = PT_RESPONSE ->
  (forall r, response m = Some r -> requests s !! to_key (rid r) = None) ->
  listen m s = (s, inr type_error).
Proof.
  intros Ho Ht Hnone. unfold listen. rewrite Ho, Ht. simpl.
  unfold on_response, the_response.
  destruct (response m) as [r|]; [|reflexivity].
  unfold request_entry, bind, ret, get. simpl.
  rewrite (Hnone r eq_refl). reflexivity.
Qed.

Lemma listen_unknown_response_throws_witness :
  listen (from_portis PT_RESPONSE (Some (mkResp (JNum 9) (JArr []) JUndef))) s_empty
  = (s_empty, inr type_error).
Proof.
  apply listen_unknown_response_throws; [reflexivity | reflexivity |].
  intros r Hr. injection Hr as <-. reflexivity.
Defined.

(** Claim C1, as stated, fails: a stale id is not silently ignored, the
    listener raises. *)
Lemma listen_unknown_response_not_silent :
  snd (listen (from_portis PT_RESPONSE (Some (mkResp (JNum 9) (JArr []) JUndef)))
              s_empty) <> inl tt.
Proof. simpl. discriminate. Qed.

(** ** Enqueue *)

Definition pushed (p : Payload) (f : Cb) (s : St) : St :=
  set_queue (queue s ++ [mkItem p f]) s.

Lemma enqueue_eq (p : Payload) (f : Cb) (s : St) :
  enqueue p f s
  = (if iframeReady s then drained (pushed p f s) else pushed p f s, inl tt).
Proof.
  destruct s as [r q rdy a nw ev lg].
  unfold enqueue, bind, modify, get. simpl.
  destruct rdy; simpl.
  - apply dequeue_drained.
  - reflexivity.
Qed.

(** ** C7: the synchronous [send] *)

(** Claim C7: [send] serves [eth_accounts] ([[account]] when the account
    is truthy, else [[]]), [eth_coinbase] (the account), [net_version] (the
    network) from the session without touching the state, answers [true]
    to [eth_uninstallFilter] after enqueueing the payload with the identity
    callback, and throws, with the state unchanged (nothing enqueued or
    posted), for every other method. *)
Theorem send_allow_list (p : Payload) (s : St) :
  (method p = "eth_accounts" ->
   send p s = (s, inl (mkSyncResult (pid p) (jsonrpc p)
                        (if truthy (account s) then JArr [account s] else JArr [])))) /\
  (method p = "eth_coinbase" ->
   send p s = (s, inl (mkSyncResult (pid p) (jsonrpc p) (account s)))) /\
  (method p = "net_version" ->
   send p s = (s, inl (mkSyncResult (pid p) (jsonrpc p) (network s)))) /\
  (method p = "eth_uninstallFilter" ->
   send p s = (fst (enqueue p CbIdentity s),
               inl (mkSyncResult (pid p) (jsonrpc p) (JBool true)))) /\
  (method p ∉ ["eth_accounts"; "eth_coinbase"; "net_version"; "eth_uninstallFilter"] ->
   send p s = (s, inr (unsupported_msg (method p)))).
Proof.
  destruct p as [i j meth ps]; simpl.
  repeat split; intros H; subst; try reflexivity.
  - unfold send, sendAsync, bind, ret. simpl. rewrite enqueue_eq. reflexivity.
  - rewrite !not_elem_of_cons in H.
    destruct H as (H1 & H2 & H3 & H4 & _).
    unfold send, bind, throw. simpl.
    apply String.eqb_neq in H1, H2, H3, H4.
    rewrite H1, H2, H3, H4. reflexivity.
Qed.

Lemma send_allow_list_witness :
  (method (pay 3 "eth_sign")
    ∉ ["eth_accounts"; "eth_coinbase"; "net_version"; "eth_uninstallFilter"]) /\
  send (pay 3 "eth_sign") s_empty = (s_empty, inr (unsupported_msg "eth_sign")).
Proof.
  assert (H : method (pay 3 "eth_sign")
                ∉ ["eth_accounts"; "eth_coinbase"; "net_version"; "eth_uninstallFilter"])
    by (simpl; rewrite !not_elem_of_cons; repeat split; try discriminate;
        apply not_elem_of_nil).
  split; [exact H|].
  exact (proj2 (proj2 (proj2 (proj2 (send_allow_list (pay 3 "eth_sign") s_empty)))) H).
Defined.

(** ** C8: the constructor *)

Definition opts_throw (isLocalhost : bool) (opts : Opts) : bool :=
  (negb isLocalhost && negb (truthy_opt (apiKey opts)))
  || (truthy_opt (infuraApiKey opts) && truthy_opt (providerNodeUrl opts)).

(** Claim C8 (as amended): the constructor throws exactly when the page is
    not on localhost and [apiKey] is absent or empty, or when [infuraApiKey]
    and [providerNodeUrl] are both non-empty strings (JavaScript
    truthiness); a thrown constructor yields no provider, and a successful
    one starts with an empty queue and request map, not ready, and the
    iframe creation as its only effect. *)
Theorem construct_throws_iff (isLocalhost : bool) (opts : Opts) :
  ((exists e, construct isLocalhost opts = inl e) <-> opts_throw isLocalhost opts = true)
  /\ match construct isLocalhost opts with
     | inl _ => True
     | inr st => (exists o, log st = [EvCreateIframe o]) /\ requests st = ∅
                 /\ queue st = [] /\ iframeReady st = false
     end.
Proof.
  unfold construct, opts_throw.
  destruct (negb isLocalhost && negb (truthy_opt (apiKey opts)));
  destruct (truthy_opt (infuraApiKey opts) && truthy_opt (providerNodeUrl opts));
  simpl; (split; [split; [intros [e He]; try discriminate; reflexivity
                         | intros H; try discriminate; eauto] |]);
  try exact I; (split; [eexists; reflexivity | repeat split]).
Qed.

(** Claim C8, as stated, fails: an empty [infuraApiKey] next to a
    [providerNodeUrl] counts as provided but does not make the constructor
    throw. *)
Lemma construct_empty_infura_accepted :
  exists st, construct false (mkOpts (Some "k1") None (Some "") (Some "https://node"))
             = inr st.
Proof. eexists. reflexivity. Qed.

(** ** The response and denial handlers, case by case *)

Definition is_account_query (meth : string) : bool :=
  String.eqb meth "eth_accounts" || String.eqb meth "eth_coinbase".

(** Appending several effects at once. *)
Definition add_logs (evs : list Ev) (s : St) : St :=
  mkSt (requests s) (queue s) (iframeReady s) (account s) (network s) (events s)
       (log s ++ evs).

(** The id a denial carries: [evt.data.response ? evt.data.response.id : null]. *)
Definition denial_id (m : Msg) : JVal :=
  match response m with Some r => rid r | None => JNull end.

Lemma on_response_cases (m : Msg) (s : St) :
  match response m with
  | None => on_response m s = (s, inr type_error)
  | Some r =>
      match requests s !! to_key (rid r) with
      | None => on_response m s = (s, inr type_error)
      | Some e =>
          let s1 := add_log (EvCb (cb e) None (Some r)) s in
          if is_account_query (method (payload e)) then
            match elem0 (rresult r) with
            | None => on_response m s = (s1, inr type_error)
            | Some a => on_response m s = (drained (set_account a s1), inl tt)
            end
          else if String.eqb (method (payload e)) "net_version" then
            on_response m s = (drained (set_network (rresult r) s1), inl tt)
          else on_response m s = (drained s1, inl tt)
      end
  end.
Proof.
  destruct s as [req q rdy a nw ev lg].
  unfold on_response, the_response.
  destruct (response m) as [r|]; [|reflexivity].
  unfold request_entry, bind, get. simpl.
  destruct (req !! to_key (rid r)) as [e|]; [|reflexivity].
  unfold is_account_query, invoke, emit, modify, ret, index0. simpl.
  destruct (method (payload e) =? "eth_accounts")%string eqn:E1;
  destruct (method (payload e) =? "eth_coinbase")%string eqn:E2;
  destruct (method (payload e) =? "net_version")%string eqn:E3; simpl;
  try (apply String.eqb_eq in E1; rewrite E1 in E3; discriminate);
  try (apply String.eqb_eq in E2; rewrite E2 in E3; discriminate);
  try (destruct (elem0 (rresult r)); simpl);
  rewrite ?dequeue_drained; reflexivity.
Qed.

Lemma forEach_deny (q : list Item) (s : St) :
  forEach (fun item => invoke (cb item) (Some denied_msg) None) q s
  = (add_logs (map deny_ev q) s, inl tt).
Proof.
  revert s. induction q as [|it q IH]; intros [req q0 rdy a nw ev lg]; simpl.
  - unfold ret, add_logs. simpl. by rewrite app_nil_r.
  - unfold bind, invoke, emit, modify. simpl. rewrite IH.
    unfold add_logs. simpl. by rewrite <- app_assoc.
Qed.

Lemma on_user_denied_cases (m : Msg) (s : St) :
  if truthy (denial_id m) then
    match requests s !! to_key (denial_id m) with
    | None => on_user_denied m s = (s, inr type_error)
    | Some e => on_user_denied m s = (drained (add_log (deny_ev e) s), inl tt)
    end
  else on_user_denied m s = (drained (add_logs (map deny_ev (queue s)) s), inl tt).
Proof.
  unfold on_user_denied, denial_id.
  destruct (truthy _).
  - unfold request_entry, bind, get. simpl.
    destruct (requests s !! _) as [e|]; [|reflexivity].
    unfold invoke, emit, modify. simpl. apply dequeue_drained.
  - unfold bind, get. simpl. rewrite forEach_deny. simpl. apply dequeue_drained.
Qed.

Lemma listen_response (m : Msg) (s : St) :
  origin m = portisClient -> msgType m = PT_RESPONSE -> listen m s = on_response m s.
Proof. intros Ho Ht. unfold listen. rewrite Ho, Ht. reflexivity. Qed.

Lemma listen_denied (m : Msg) (s : St) :
  origin m = portisClient -> msgType m = PT_USER_DENIED -> listen m s = on_user_denied m s.
Proof. intros Ho Ht. unfold listen. rewrite Ho, Ht. reflexivity. Qed.

(** ** Sample states *)

Definition item_tx : Item := mkItem (pay 1 "eth_sendTransaction") (CbUser 1).
Definition item_sign : Item := mkItem (pay 2 "eth_sign") (CbUser 2).
Definition item_accounts : Item := mkItem (pay 1 "eth_accounts") (CbUser 1).

(** [item_tx] in flight, [item_sign] still queued. *)
Definition s_tx_pending_sign_queued : St :=
  mkSt {[ "1" := item_tx ]} [item_sign] true JNull JNull [] [].

Definition deny_with (id : JVal) (result : JVal) : Msg :=
  from_portis PT_USER_DENIED (Some (mkResp id result JUndef)).

Definition respond_with (id : JVal) (result : JVal) : Msg :=
  from_portis PT_RESPONSE (Some (mkResp id result JUndef)).

(** ** C3: a denial that carries an id *)

(** Claim C3 (as amended): a [PT_USER_DENIED] from the Portis origin whose
    id is truthy and names a key [k] of [requests] invokes the callback of
    the entry at [k] once with the denial error and no other callback; no
    entry of [requests] is removed (the denied one included).  It is then
    followed by a full drain: every queued item is posted in order and
    registered, and the queue ends empty. *)
Theorem denial_with_id_then_drain (m : Msg) (s : St) (e : Item) :
  origin m = portisClient ->
  msgType m = PT_USER_DENIED ->
  truthy (denial_id m) = true ->
  requests s !! to_key (denial_id m) = Some e ->
  snd (listen m s) = inl tt /\
  log (fst (listen m s)) = (log s ++ [deny_ev e] ++ map post_of (queue s))%list /\
  queue (fst (listen m s)) = [] /\
  requests (fst (listen m s)) = register_all (queue s) (requests s).
Proof.
  intros Ho Ht Hid He. rewrite (listen_denied m s Ho Ht).
  pose proof (on_user_denied_cases m s) as C. rewrite Hid, He in C. rewrite C.
  unfold drained, add_log. simpl. repeat split. by rewrite <- app_assoc.
Qed.

Lemma denial_with_id_then_drain_witness :
  snd (listen (deny_with (JNum 1) JUndef) s_tx_pending_sign_queued) = inl tt /\
  log (fst (listen (deny_with (JNum 1) JUndef) s_tx_pending_sign_queued))
  = [deny_ev item_tx; post_of item_sign].
Proof.
  destruct (denial_with_id_then_drain (deny_with (JNum 1) JUndef)
              s_tx_pending_sign_queued item_tx)
    as (H1 & H2 & _); try reflexivity.
  split; [exact H1 | rewrite H2; reflexivity].
Defined.

(** Claim C3, as stated, fails: the queued [item_sign] does not stay in the
    queue; the denial's drain posts it. *)
Lemma denial_with_id_moves_queue :
  queue (fst (listen (deny_with (JNum 1) JUndef) s_tx_pending_sign_queued))
    <> queue s_tx_pending_sign_queued /\
  In (post_of item_sign)
     (log (fst (listen (deny_with (JNum 1) JUndef) s_tx_pending_sign_queued))).
Proof. split; [vm_compute; discriminate | vm_compute; tauto]. Qed.

(** ** C4: a denial without an id *)

(** Claim C4: a [PT_USER_DENIED] from the Portis origin that carries no id
    (no response object, or an id that is absent, [null] or otherwise
    falsy) invokes the callback of every queued item with the denial error,
    in queue order, and leaves the queue empty (the drain that follows
    posts and registers those items). *)
Theorem denial_without_id_denies_queue (m : Msg) (s : St) :
  origin m = portisClient ->
  msgType m = PT_USER_DENIED ->
  truthy (denial_id m) = false ->
  snd (listen m s) = inl tt /\
  log (fst (listen m s))
  = (log s ++ map deny_ev (queue s) ++ map post_of (queue s))%list /\
  queue (fst (listen m s)) = [].
Proof.
  intros Ho Ht Hid. rewrite (listen_denied m s Ho Ht).
  pose proof (on_user_denied_cases m s) as C. rewrite Hid in C. rewrite C.
  unfold drained, add_logs. simpl. repeat split. by rewrite <- app_assoc.
Qed.

Lemma denial_without_id_denies_queue_witness :
  snd (listen (from_portis PT_USER_DENIED None) s_tx_pending_sign_queued) = inl tt /\
  log (fst (listen (from_portis PT_USER_DENIED None) s_tx_pending_sign_queued))
  = [deny_ev item_sign; post_of item_sign] /\
  queue (fst (listen (from_portis PT_USER_DENIED None) s_tx_pending_sign_queued)) = [].
Proof.
  destruct (denial_without_id_denies_queue (from_portis PT_USER_DENIED None)
              s_tx_pending_sign_queued)
    as (H1 & H2 & H3); try reflexivity.
  split; [exact H1 | split; [rewrite H2; reflexivity | exact H3]].
Defined.

(** ** C10: the drain does not look at [iframeReady] *)

(** Claim C10: whenever a [PT_RESPONSE] or [PT_USER_DENIED] message from
    the Portis origin is handled without an exception, the whole queue
    present before the message is posted (as the last effects, in order)
    and registered, and the queue ends empty, whatever [iframeReady] is;
    [enqueue] on the other hand only appends while [iframeReady] is false. *)
Theorem drain_ignores_readiness (m : Msg) (s s' : St) :
  origin m = portisClient ->
  (msgType m = PT_RESPONSE \/ msgType m = PT_USER_DENIED) ->
  listen m s = (s', inl tt) ->
  queue s' = [] /\
  requests s' = register_all (queue s) (requests s) /\
  iframeReady s' = iframeReady s /\
  (exists pre, log s' = (pre ++ map post_of (queue s))%list) /\
  (forall (p : Payload) (f : Cb), iframeReady s = false ->
     enqueue p f s = (pushed p f s, inl tt)).
Proof.
  intros Ho Ht Hl.
  assert (Henq : forall (p : Payload) (f : Cb), iframeReady s = false ->
                   enqueue p f s = (pushed p f s, inl tt))
    by (intros p f Hr; rewrite enqueue_eq, Hr; reflexivity).
  destruct Ht as [Ht|Ht].
  - rewrite (listen_response m s Ho Ht) in Hl.
    pose proof (on_response_cases m s) as C.
    destruct (response m) as [r|]; [|rewrite C in Hl; discriminate].
    destruct (requests s !! to_key (rid r)) as [e|]; [|rewrite C in Hl; discriminate].
    destruct (is_account_query _); [destruct (elem0 (rresult r))|];
      [| | destruct (String.eqb _ _)];
      rewrite C in Hl; try discriminate; injection Hl as <-;
      (split; [reflexivity|]); (split; [reflexivity|]); (split; [reflexivity|]);
      (split; [eexists; reflexivity | exact Henq]).
  - rewrite (listen_denied m s Ho Ht) in Hl.
    pose proof (on_user_denied_cases m s) as C.
    destruct (truthy (denial_id m)).
    + destruct (requests s !! _) as [e|]; rewrite C in Hl; [|discriminate].
      injection Hl as <-.
      repeat split; [eexists; reflexivity | exact Henq].
    + rewrite C in Hl. injection Hl as <-.
      repeat split; [eexists; reflexivity | exact Henq].
Qed.

(** Not ready, [item_tx] in flight and [item_sign] queued: the response
    to [item_tx] posts [item_sign]. *)
Definition s_not_ready : St :=
  mkSt {[ "1" := item_tx ]} [item_sign] false JNull JNull [] [].

Lemma drain_ignores_readiness_witness :
  iframeReady s_not_ready = false /\
  queue (fst (listen (respond_with (JNum 1) (JStr "0x1")) s_not_ready)) = [] /\
  (exists pre, log (fst (listen (respond_with (JNum 1) (JStr "0x1")) s_not_ready))
               = (pre ++ [post_of item_sign])%list).
Proof.
  destruct (drain_ignores_readiness (respond_with (JNum 1) (JStr "0x1")) s_not_ready
              (fst (listen (respond_with (JNum 1) (JStr "0x1")) s_not_ready)))
    as (H1 & _ & _ & H4 & _).
  - reflexivity.
  - left. reflexivity.
  - reflexivity.
  - split; [reflexivity | split; [exact H1 | exact H4]].
Defined.

(** ** C9: session fields after a resolution *)

(** [eth_accounts] in flight, nothing queued. *)
Definition s_accounts_pending : St :=
  mkSt {[ "1" := item_accounts ]} [] true JNull JNull [] [].

(** Claim C9 (as amended): a [PT_RESPONSE] for a pending [eth_accounts] or
    [eth_coinbase] request whose result is a non-empty array sets [account]
    to its first element; a [PT_RESPONSE] for a pending [net_version]
    request sets [network] to the result; a denial ([PT_USER_DENIED])
    leaves [account] and [network] unchanged. *)
Theorem session_after_resolution (m : Msg) (s : St) (r : Resp) (e : Item) :
  origin m = portisClient ->
  response m = Some r ->
  requests s !! to_key (rid r) = Some e ->
  (msgType m = PT_RESPONSE -> is_account_query (method (payload e)) = true ->
   forall x xs, rresult r = JArr (x :: xs) ->
   snd (listen m s) = inl tt /\ account (fst (listen m s)) = x) /\
  (msgType m = PT_RESPONSE -> method (payload e) = "net_version" ->
   snd (listen m s) = inl tt /\ network (fst (listen m s)) = rresult r) /\
  (msgType m = PT_USER_DENIED ->
   account (fst (listen m s)) = account s /\ network (fst (listen m s)) = network s).
Proof.
  intros Ho Hr He. pose proof (on_response_cases m s) as C.
  rewrite Hr, He in C.
  split; [|split].
  - intros Ht Hacc x xs Hres. rewrite (listen_response m s Ho Ht).
    rewrite Hacc, Hres in C. simpl in C. rewrite C. split; reflexivity.
  - intros Ht Hnet. rewrite (listen_response m s Ho Ht).
    unfold is_account_query in C. rewrite Hnet in C. simpl in C.
    rewrite C. split; reflexivity.
  - intros Ht. rewrite (listen_denied m s Ho Ht).
    pose proof (on_user_denied_cases m s) as D.
    destruct (truthy (denial_id m)); [destruct (requests s !! to_key (denial_id m))|];
      rewrite D; split; reflexivity.
Qed.

Lemma session_after_resolution_witness :
  account (fst (listen (respond_with (JNum 1) (JArr [JStr "0xabc"])) s_accounts_pending))
  = JStr "0xabc".
Proof.
  destruct (session_after_resolution (respond_with (JNum 1) (JArr [JStr "0xabc"]))
              s_accounts_pending (mkResp (JNum 1) (JArr [JStr "0xabc"]) JUndef)
              item_accounts eq_refl eq_refl eq_refl) as [Hacc _].
  exact (proj2 (Hacc eq_refl eq_refl (JStr "0xabc") [] eq_refl)).
Defined.

(** Claim C9, as stated, fails: a denial of the pending [eth_accounts]
    request, even one whose response carries a result, leaves [account]
    at [null]. *)
Lemma denial_does_not_set_account :
  account (fst (listen (deny_with (JNum 1) (JArr [JStr "0xabc"])) s_accounts_pending))
  <> JStr "0xabc".
Proof. vm_compute. discriminate. Qed.

(** ** C2: entries of [requests] are never removed *)

Lemma kk_bind {A B} (m : M A) (k : A -> M B) :
  preserves keeps_keys m -> (forall a, preserves keeps_keys (k a)) ->
  preserves keeps_keys (bind m k).
Proof. intros Hm Hk. eapply preserves_bind; eauto using keeps_keys_trans. Qed.

Lemma on_logged_in_keeps_keys (m : Msg) : preserves keeps_keys (on_logged_in m).
Proof.
  unfold on_logged_in. apply kk_bind.
  - apply preserves_get, keeps_keys_refl.
  - intros s. apply preserves_forEach; [exact keeps_keys_refl | exact keeps_keys_trans|].
    intros sub. apply kk_bind.
    + unfold the_response. destruct (response m);
        [apply preserves_ret | apply preserves_throw]; exact keeps_keys_refl.
    + intros r. apply preserves_modify. intros s' k H. exact H.
Qed.

Lemma drained_keeps_keys (s : St) : keeps_keys s (drained s).
Proof. intros k H. apply register_all_keeps, H. Qed.

Lemma listen_keeps_keys (m : Msg) : preserves keeps_keys (listen m).
Proof.
  intros s. unfold listen.
  destruct (origin m =? portisClient)%string; [|apply keeps_keys_refl].
  destruct (msgType m =? PT_GREEN_LIGHT)%string.
  { unfold on_green_light, bind, modify. simpl. rewrite dequeue_drained.
    apply drained_keeps_keys. }
  destruct (msgType m =? PT_RESPONSE)%string.
  { pose proof (on_response_cases m s) as C.
    destruct (response m) as [r|]; [|rewrite C; apply keeps_keys_refl].
    destruct (requests s !! to_key (rid r)) as [e|]; [|rewrite C; apply keeps_keys_refl].
    destruct (is_account_query _); [destruct (elem0 (rresult r))|];
      [| | destruct (String.eqb _ _)]; rewrite C; simpl;
      intros k H; simpl; first [exact H | apply register_all_keeps; exact H]. }
  destruct (msgType m =? PT_SHOW_IFRAME)%string; [intros k H; exact H|].
  destruct (msgType m =? PT_HIDE_IFRAME)%string; [intros k H; exact H|].
  destruct (msgType m =? PT_USER_DENIED)%string.
  { pose proof (on_user_denied_cases m s) as D.
    destruct (truthy (denial_id m)); [destruct (requests s !! to_key (denial_id m))|]; rewrite D;
      intros k H; simpl; first [exact H | apply register_all_keeps; exact H]. }
  destruct (msgType m =? PT_USER_LOGGED_IN)%string;
    [apply on_logged_in_keeps_keys | apply keeps_keys_refl].
Qed.

(** [item_tx] in flight, nothing queued. *)
Definition s_tx_pending : St :=
  mkSt {[ "1" := item_tx ]} [] true JNull JNull [] [].

(** Claim C2 (as amended): [requests] holds at most one entry per key (a
    later registration under the same key replaces the earlier one) and no
    entry is ever removed: no message and no [enqueue] deletes a key, and a
    [PT_RESPONSE] (resp. a denial with an id) for a pending key invokes
    the entry's callback and leaves the entry in place, so a repeated
    response or denial for that id invokes the callback again. *)
Theorem pending_entries_never_removed (m : Msg) (s : St) :
  (forall k, is_Some (requests s !! k) -> is_Some (requests (fst (listen m s)) !! k)) /\
  (forall p f k, is_Some (requests s !! k) ->
     is_Some (requests (fst (enqueue p f s)) !! k)) /\
  (forall r e, origin m = portisClient -> msgType m = PT_RESPONSE ->
     response m = Some r -> requests s !! to_key (rid r) = Some e ->
     exists rest, log (fst (listen m s)) = (log s ++ EvCb (cb e) None (Some r) :: rest)%list) /\
  (forall e, origin m = portisClient -> msgType m = PT_USER_DENIED ->
     truthy (denial_id m) = true -> requests s !! to_key (denial_id m) = Some e ->
     exists rest, log (fst (listen m s)) = (log s ++ deny_ev e :: rest)%list).
Proof.
  split; [|split; [|split]].
  - apply listen_keeps_keys.
  - intros p f k H. rewrite enqueue_eq.
    destruct (iframeReady s); simpl; [apply register_all_keeps|]; exact H.
  - intros r e Ho Ht Hr He. rewrite (listen_response m s Ho Ht).
    pose proof (on_response_cases m s) as C. rewrite Hr, He in C.
    destruct (is_account_query _); [destruct (elem0 (rresult r))|];
      [| | destruct (String.eqb _ _)]; rewrite C; simpl;
      unfold drained, add_log; simpl;
      first [exists []; reflexivity
            | eexists; rewrite <- !app_assoc; reflexivity].
  - intros e Ho Ht Hid He. rewrite (listen_denied m s Ho Ht).
    pose proof (on_user_denied_cases m s) as D. rewrite Hid, He in D. rewrite D.
    unfold drained, add_log; simpl. eexists. rewrite <- !app_assoc. reflexivity.
Qed.

Lemma pending_entries_never_removed_witness :
  exists rest,
    log (fst (listen (respond_with (JNum 1) (JStr "0x1")) s_tx_pending))
    = ([] ++ EvCb (CbUser 1) None (Some (mkResp (JNum 1) (JStr "0x1") JUndef)) :: rest)%list.
Proof.
  exact (proj1 (proj2 (proj2 (pending_entries_never_removed
           (respond_with (JNum 1) (JStr "0x1")) s_tx_pending)))
           (mkResp (JNum 1) (JStr "0x1") JUndef) item_tx
           eq_refl eq_refl eq_refl eq_refl).
Defined.

(** Claim C2, as stated, fails: the entry is not removed on resolution,
    and a second response with the same id runs the callback again. *)
Lemma response_delivered_twice :
  let m := respond_with (JNum 1) (JStr "0x1") in
  let s2 := fst (listen m (fst (listen m s_tx_pending))) in
  log s2 = [EvCb (CbUser 1) None (Some (mkResp (JNum 1) (JStr "0x1") JUndef));
            EvCb (CbUser 1) None (Some (mkResp (JNum 1) (JStr "0x1") JUndef))] /\
  requests s2 !! "1" = Some item_tx.
Proof. vm_compute. split; reflexivity. Qed.

(** ** C5: FIFO across the readiness barrier *)

Lemma enqueue_all_not_ready (items : list Item) (s : St) :
  iframeReady s = false ->
  enqueue_all items s = (set_queue (queue s ++ items) s, inl tt).
Proof.
  unfold enqueue_all.
  revert s. induction items as [|it items IH]; intros s Hr; cbn [forEach].
  - unfold ret, set_queue. destruct s; simpl. by rewrite app_nil_r.
  - unfold bind at 1. rewrite enqueue_eq, Hr. rewrite IH by exact Hr.
    destruct it, s. unfold pushed, set_queue. simpl. by rewrite <- app_assoc.
Qed.

(** One round of the drain: post the head, then register it. *)
Definition post_and_register (it : Item) (t : St) : St :=
  set_requests (<[key_of it := it]> (requests t)) (add_log (post_of it) t).

(** Claim C5: requests enqueued before the green light (from a state that is
    not ready and has an empty queue) are not posted before it; the green
    light then posts them in enqueue order, registers each, and empties the
    queue.  The drain handles one item at a time: it shifts the head, posts
    it and registers it before it looks at the rest of the queue. *)
Theorem fifo_across_readiness (items : list Item) (s : St) :
  iframeReady s = false ->
  queue s = [] ->
  snd (enqueue_all items s) = inl tt /\
  log (fst (enqueue_all items s)) = log s /\
  log (fst (listen (from_portis PT_GREEN_LIGHT None) (fst (enqueue_all items s))))
    = (log s ++ map post_of items)%list /\
  queue (fst (listen (from_portis PT_GREEN_LIGHT None) (fst (enqueue_all items s)))) = [] /\
  requests (fst (listen (from_portis PT_GREEN_LIGHT None) (fst (enqueue_all items s))))
    = register_all items (requests s) /\
  (forall (t : St) (it : Item) (rest : list Item), queue t = it :: rest ->
     dequeue t = dequeue (post_and_register it (set_queue rest t))).
Proof.
  intros Hr Hq. rewrite (enqueue_all_not_ready items s Hr), Hq. simpl.
  unfold listen, on_green_light, bind, modify. simpl.
  rewrite dequeue_drained. unfold drained. simpl.
  repeat split.
  intros t it rest Ht. rewrite !dequeue_drained.
  destruct t as [req q rdy a nw ev lg]. simpl in Ht. subst q.
  unfold drained, post_and_register. simpl. by rewrite <- app_assoc.
Qed.

Lemma fifo_across_readiness_witness :
  log (fst (listen (from_portis PT_GREEN_LIGHT None)
                   (fst (enqueue_all [item_tx; item_sign] s_empty))))
  = [post_of item_tx; post_of item_sign].
Proof.
  exact (proj1 (proj2 (proj2 (fifo_across_readiness [item_tx; item_sign] s_empty
                                eq_refl eq_refl)))).
Defined.

(** * Further properties of the provider *)

(** ** The login handler *)

Definition logins (s : St) : list Sub :=
  filter (fun sub => String.eqb (eventName sub) "login") (events s).

Definition login_ev (r : Resp) (sub : Sub) : Ev :=
  EvLogin (callback sub) "portis" (raddress r).

Lemma bind_ok {A B} (m : M A) (k : A -> M B) (s s' : St) (a : A) :
  m s = (s', inl a) -> bind m k s = k a s'.
Proof. intros H. unfold bind. rewrite H. reflexivity. Qed.

Lemma forEach_login (m : Msg) (r : Resp) (l : list Sub) (t : St) :
  response m = Some r ->
  forEach (fun sub => let! r := the_response m in
                      emit (EvLogin (callback sub) "portis" (raddress r))) l t
  = (add_logs (map (login_ev r) l) t, inl tt).
Proof.
  intros Hr. revert t. induction l as [|sub l IH]; intros [req q rdy a nw ev lg].
  - unfold add_logs. simpl. unfold ret. by rewrite app_nil_r.
  - cbn [forEach]. rewrite bind_ok with (s' := add_log (login_ev r sub)
                                           (mkSt req q rdy a nw ev lg)) (a := tt).
    + rewrite IH. unfold add_logs, login_ev. simpl. by rewrite <- app_assoc.
    + unfold bind, the_response. rewrite Hr. reflexivity.
Qed.

Lemma on_logged_in_cases (m : Msg) (s : St) :
  on_logged_in m s =
  match response m with
  | Some r => (add_logs (map (login_ev r) (logins s)) s, inl tt)
  | None => match logins s with
            | [] => (s, inl tt)
            | _ :: _ => (s, inr type_error)
            end
  end.
Proof.
  unfold on_logged_in, bind at 1, get. fold (logins s).
  destruct (response m) as [r|] eqn:Hr.
  - apply forEach_login, Hr.
  - destruct (logins s) as [|sub l]; [reflexivity|].
    cbn [forEach]. unfold bind, the_response. rewrite Hr. reflexivity.
Qed.

(** A case split of [listen] into the outcomes of its handlers. *)
Ltac case_listen m s :=
  unfold listen;
  destruct (origin m =? portisClient)%string;
  [ destruct (msgType m =? PT_GREEN_LIGHT)%string;
    [ unfold on_green_light, bind, modify; simpl; rewrite dequeue_drained
    | destruct (msgType m =? PT_RESPONSE)%string;
      [ let C := fresh "C" in
        pose proof (on_response_cases m s) as C;
        destruct (response m) as [?r|];
        [ destruct (requests s !! to_key (rid r)) as [?e|];
          [ destruct (is_account_query (method (payload e)));
            [ destruct (elem0 (rresult r)) | destruct (String.eqb (method (payload e)) "net_version") ]
          | ]
        | ]; rewrite C
      | destruct (msgType m =? PT_SHOW_IFRAME)%string;
        [ unfold emit, modify
        | destruct (msgType m =? PT_HIDE_IFRAME)%string;
          [ unfold emit, modify
          | destruct (msgType m =? PT_USER_DENIED)%string;
            [ let D := fresh "D" in
              pose proof (on_user_denied_cases m s) as D;
              destruct (truthy (denial_id m));
              [ destruct (requests s !! to_key (denial_id m)) | ]; rewrite D
            | destruct (msgType m =? PT_USER_LOGGED_IN)%string;
              [ rewrite on_logged_in_cases; destruct (response m);
                [ | destruct (logins s) ]
              | unfold ret ] ] ] ] ] ]
  | unfold ret ].

(** ** Sample messages and states for the extras *)

Definition s_subscribed : St :=
  mkSt ∅ [] true JNull JNull
       [mkSub "login" (CbUser 1); mkSub "purchase-initiated" (CbUser 2);
        mkSub "login" (CbUser 3)] [].

Definition s_ready : St := mkSt ∅ [] true JNull JNull [] [].

Definition login_msg (address : JVal) : Msg :=
  from_portis PT_USER_LOGGED_IN (Some (mkResp JUndef JUndef address)).

Lemma listen_login (m : Msg) (s : St) (r : Resp) :
  origin m = portisClient -> msgType m = PT_USER_LOGGED_IN -> response m = Some r ->
  listen m s = (add_logs (map (login_ev r) (logins s)) s, inl tt).
Proof.
  intros Ho Ht Hr. unfold listen. rewrite Ho, Ht. simpl.
  rewrite on_logged_in_cases, Hr. reflexivity.
Qed.

(** The login notification calls every subscriber registered under
    ["login"], in registration order, with provider ["portis"] and the
    response's address, and changes nothing else. *)
Theorem login_notifies_subscribers (m : Msg) (s : St) (r : Resp) :
  origin m = portisClient -> msgType m = PT_USER_LOGGED_IN -> response m = Some r ->
  listen m s = (add_logs (map (login_ev r) (logins s)) s, inl tt).
Proof. apply listen_login. Qed.

Lemma login_notifies_subscribers_witness :
  log (fst (listen (login_msg (JStr "0xabc")) s_subscribed))
  = [EvLogin (CbUser 1) "portis" (JStr "0xabc"); EvLogin (CbUser 3) "portis" (JStr "0xabc")].
Proof.
  rewrite (login_notifies_subscribers (login_msg (JStr "0xabc")) s_subscribed
             (mkResp JUndef JUndef (JStr "0xabc")) eq_refl eq_refl eq_refl).
  reflexivity.
Defined.

(** A login notification without a response object raises a [TypeError]
    when at least one login subscriber exists (before any is called), and
    is a no-op when there is none. *)
Theorem login_without_response (m : Msg) (s : St) :
  origin m = portisClient -> msgType m = PT_USER_LOGGED_IN -> response m = None ->
  listen m s = (s, match logins s with [] => inl tt | _ :: _ => inr type_error end).
Proof.
  intros Ho Ht Hr. unfold listen. rewrite Ho, Ht. simpl.
  rewrite on_logged_in_cases, Hr. by destruct (logins s).
Qed.

Lemma login_without_response_witness :
  listen (from_portis PT_USER_LOGGED_IN None) s_subscribed = (s_subscribed, inr type_error)
  /\ listen (from_portis PT_USER_LOGGED_IN None) s_ready = (s_ready, inl tt).
Proof.
  split.
  - exact (login_without_response (from_portis PT_USER_LOGGED_IN None) s_subscribed
             eq_refl eq_refl eq_refl).
  - exact (login_without_response (from_portis PT_USER_LOGGED_IN None) s_ready
             eq_refl eq_refl eq_refl).
Defined.

(** Registering a login subscriber with [on] makes the next login
    notification call it after every earlier login subscriber. *)
Theorem on_then_login (name_addr : JVal) (f : Cb) (s : St) :
  log (fst (listen (login_msg name_addr) (fst (on "login" f s))))
  = (log s ++ map (login_ev (mkResp JUndef JUndef name_addr)) (logins s)
       ++ [EvLogin f "portis" name_addr])%list.
Proof.
  rewrite (listen_login (login_msg name_addr) (fst (on "login" f s))
             (mkResp JUndef JUndef name_addr) eq_refl eq_refl eq_refl).
  destruct s as [req q rdy a nw ev lg]. unfold logins, on, modify, add_logs. simpl.
  rewrite filter_app, map_app. simpl. reflexivity.
Qed.

(** ** Readiness and the queue *)

(** Once set, [iframeReady] is never reset: no message, [enqueue] or
    synchronous [send] turns it back to false. *)
Theorem ready_never_reverts (m : Msg) (p : Payload) (f : Cb) (s : St) :
  iframeReady s = true ->
  iframeReady (fst (listen m s)) = true /\
  iframeReady (fst (enqueue p f s)) = true /\
  iframeReady (fst (send p s)) = true.
Proof.
  intros Hr. split; [|split].
  - case_listen m s; simpl; try reflexivity; exact Hr.
  - rewrite enqueue_eq, Hr. exact Hr.
  - unfold send.
    destruct (method p =? "eth_accounts")%string; [exact Hr|].
    destruct (method p =? "eth_coinbase")%string; [exact Hr|].
    destruct (method p =? "net_version")%string; [exact Hr|].
    destruct (method p =? "eth_uninstallFilter")%string; [|exact Hr].
    unfold bind, sendAsync. rewrite enqueue_eq, Hr. exact Hr.
Qed.

Lemma ready_never_reverts_witness :
  iframeReady (fst (listen (from_portis PT_USER_DENIED None) s_ready)) = true.
Proof.
  exact (proj1 (ready_never_reverts (from_portis PT_USER_DENIED None) (pay 1 "x")
                  CbIdentity s_ready eq_refl)).
Defined.

(** Once the iframe is ready and the queue is empty, the queue stays
    empty: every message, [enqueue] and synchronous [send] leaves it empty. *)
Theorem ready_queue_stays_empty (m : Msg) (p : Payload) (f : Cb) (s : St) :
  iframeReady s = true -> queue s = [] ->
  queue (fst (listen m s)) = [] /\
  queue (fst (enqueue p f s)) = [] /\
  queue (fst (send p s)) = [].
Proof.
  intros Hr Hq. split; [|split].
  - case_listen m s; simpl; try reflexivity; exact Hq.
  - rewrite enqueue_eq, Hr. reflexivity.
  - unfold send.
    destruct (method p =? "eth_accounts")%string; [exact Hq|].
    destruct (method p =? "eth_coinbase")%string; [exact Hq|].
    destruct (method p =? "net_version")%string; [exact Hq|].
    destruct (method p =? "eth_uninstallFilter")%string; [|exact Hq].
    unfold bind, sendAsync. rewrite enqueue_eq, Hr. reflexivity.
Qed.

Lemma ready_queue_stays_empty_witness :
  queue (fst (enqueue (pay 1 "eth_sendTransaction") (CbUser 1) s_ready)) = [].
Proof.
  exact (proj1 (proj2 (ready_queue_stays_empty (from_portis PT_GREEN_LIGHT None)
           (pay 1 "eth_sendTransaction") (CbUser 1) s_ready eq_refl eq_refl))).
Defined.

Lemma enqueue_ready_empty (p : Payload) (f : Cb) (s : St) :
  iframeReady s = true -> queue s = [] ->
  enqueue p f s
  = (set_requests (<[to_key (pid p) := mkItem p f]> (requests s))
                  (add_log (EvPost PT_HANDLE_REQUEST p) s), inl tt).
Proof.
  intros Hr Hq. rewrite enqueue_eq, Hr.
  destruct s as [req q rdy a nw ev lg]. simpl in *. subst.
  unfold drained, pushed, set_queue. simpl. reflexivity.
Qed.

(** With the iframe ready and nothing queued, [enqueue] (hence
    [sendAsync]) posts the payload at once and registers its callback
    under the id's key; nothing else changes. *)
Theorem enqueue_when_ready_posts_now (p : Payload) (f : Cb) (s : St) :
  iframeReady s = true -> queue s = [] ->
  enqueue p f s
  = (set_requests (<[to_key (pid p) := mkItem p f]> (requests s))
                  (add_log (EvPost PT_HANDLE_REQUEST p) s), inl tt).
Proof. apply enqueue_ready_empty. Qed.

Lemma enqueue_when_ready_posts_now_witness :
  log (fst (enqueue (pay 5 "eth_sign") (CbUser 5) s_ready))
  = [EvPost PT_HANDLE_REQUEST (pay 5 "eth_sign")].
Proof.
  rewrite (enqueue_when_ready_posts_now (pay 5 "eth_sign") (CbUser 5) s_ready
             eq_refl eq_refl).
  reflexivity.
Defined.



(** A second green light, once ready with nothing queued, changes
    nothing. *)
Theorem green_light_idempotent (m : Msg) (s : St) :
  origin m = portisClient -> msgType m = PT_GREEN_LIGHT ->
  iframeReady s = true -> queue s = [] ->
  listen m s = (s, inl tt).
Proof.
  intros Ho Ht Hr Hq. unfold listen. rewrite Ho, Ht. simpl.
  unfold on_green_light, bind, modify. rewrite dequeue_drained.
  destruct s as [req q rdy a nw ev lg]. simpl in *. subst.
  unfold drained. simpl. by rewrite app_nil_r.
Qed.

Lemma green_light_idempotent_witness :
  listen (from_portis PT_GREEN_LIGHT None) s_ready = (s_ready, inl tt).
Proof.
  exact (green_light_idempotent (from_portis PT_GREEN_LIGHT None) s_ready
           eq_refl eq_refl eq_refl eq_refl).
Defined.

(** ** Other message types *)






(** ** Edge cases of the response and denial handlers *)

(** A response to a pending [eth_accounts]/[eth_coinbase] request whose
    result is [null] or absent calls the callback, then raises a
    [TypeError] on [result[0]]: [account] is unchanged and the queue is not
    drained. *)
Theorem account_response_null_result (m : Msg) (s : St) (r : Resp) (e : Item) :
  origin m = portisClient -> msgType m = PT_RESPONSE -> response m = Some r ->
  requests s !! to_key (rid r) = Some e ->
  is_account_query (method (payload e)) = true ->
  rresult r = JNull \/ rresult r = JUndef ->
  listen m s = (add_log (EvCb (cb e) None (Some r)) s, inr type_error).
Proof.
  intros Ho Ht Hr He Hacc Hnull. rewrite (listen_response m s Ho Ht).
  pose proof (on_response_cases m s) as C. rewrite Hr, He, Hacc in C.
  destruct Hnull as [Hn|Hn]; rewrite Hn in C; exact C.
Qed.

Lemma account_response_null_result_witness :
  listen (respond_with (JNum 1) JNull) s_accounts_pending
  = (add_log (EvCb (CbUser 1) None (Some (mkResp (JNum 1) JNull JUndef)))
             s_accounts_pending, inr type_error).
Proof.
  exact (account_response_null_result (respond_with (JNum 1) JNull) s_accounts_pending
           (mkResp (JNum 1) JNull JUndef) item_accounts eq_refl eq_refl eq_refl eq_refl
           eq_refl (or_introl eq_refl)).
Defined.

(** A response to a pending [eth_accounts]/[eth_coinbase] request whose
    result is a non-empty string (not an array) sets [account] to the
    string's first character ([result[0]] on a string). *)
Theorem account_response_string_result (m : Msg) (s : St) (r : Resp) (e : Item)
    (c : Ascii.ascii) (rest : string) :
  origin m = portisClient -> msgType m = PT_RESPONSE -> response m = Some r ->
  requests s !! to_key (rid r) = Some e ->
  is_account_query (method (payload e)) = true ->
  rresult r = JStr (String c rest) ->
  snd (listen m s) = inl tt /\ account (fst (listen m s)) = JStr (String c EmptyString).
Proof.
  intros Ho Ht Hr He Hacc Hs. rewrite (listen_response m s Ho Ht).
  pose proof (on_response_cases m s) as C. rewrite Hr, He, Hacc, Hs in C.
  simpl in C. rewrite C. split; reflexivity.
Qed.

Lemma account_response_string_result_witness :
  account (fst (listen (respond_with (JNum 1) (JStr "0xabc")) s_accounts_pending))
  = JStr "0".
Proof.
  exact (proj2 (account_response_string_result (respond_with (JNum 1) (JStr "0xabc"))
           s_accounts_pending (mkResp (JNum 1) (JStr "0xabc") JUndef) item_accounts
           (Ascii.ascii_of_nat 48) "xabc" eq_refl eq_refl eq_refl eq_refl eq_refl eq_refl)).
Defined.

(** A response to a pending request of any method other than
    [eth_accounts], [eth_coinbase] and [net_version] leaves [account] and
    [network] unchanged; the callback is called and the queue drained. *)
Theorem other_response_keeps_session (m : Msg) (s : St) (r : Resp) (e : Item) :
  origin m = portisClient -> msgType m = PT_RESPONSE -> response m = Some r ->
  requests s !! to_key (rid r) = Some e ->
  method (payload e) ∉ ["eth_accounts"; "eth_coinbase"; "net_version"] ->
  listen m s = (drained (add_log (EvCb (cb e) None (Some r)) s), inl tt) /\
  account (fst (listen m s)) = account s /\ network (fst (listen m s)) = network s.
Proof.
  intros Ho Ht Hr He Hm. rewrite (listen_response m s Ho Ht).
  rewrite !not_elem_of_cons in Hm. destruct Hm as (H1 & H2 & H3 & _).
  apply String.eqb_neq in H1, H2, H3.
  pose proof (on_response_cases m s) as C. rewrite Hr, He in C.
  unfold is_account_query in C. rewrite H1, H2, H3 in C. simpl in C.
  rewrite C. repeat split.
Qed.

Lemma other_response_keeps_session_witness :
  account (fst (listen (respond_with (JNum 1) (JStr "0xhash")) s_tx_pending)) = JNull.
Proof.
  refine (proj1 (proj2 (other_response_keeps_session
            (respond_with (JNum 1) (JStr "0xhash")) s_tx_pending
            (mkResp (JNum 1) (JStr "0xhash") JUndef) item_tx
            eq_refl eq_refl eq_refl eq_refl _))).
  rewrite !not_elem_of_cons. repeat split; try discriminate. apply not_elem_of_nil.
Defined.

(** A denial whose truthy id is not a key of [requests] raises a
    [TypeError] before any change: no callback, no drain. *)
Theorem denial_unknown_id_throws (m : Msg) (s : St) :
  origin m = portisClient -> msgType m = PT_USER_DENIED ->
  truthy (denial_id m) = true -> requests s !! to_key (denial_id m) = None ->
  listen m s = (s, inr type_error).
Proof.
  intros Ho Ht Hid Hn. rewrite (listen_denied m s Ho Ht).
  pose proof (on_user_denied_cases m s) as D. rewrite Hid, Hn in D. exact D.
Qed.

Lemma denial_unknown_id_throws_witness :
  listen (deny_with (JNum 7) JUndef) s_tx_pending_sign_queued
  = (s_tx_pending_sign_queued, inr type_error).
Proof.
  exact (denial_unknown_id_throws (deny_with (JNum 7) JUndef) s_tx_pending_sign_queued
           eq_refl eq_refl eq_refl eq_refl).
Defined.

(** ** Registration: a later item with the same key wins *)

(** The last item of [q] whose key is [k]. *)
Fixpoint last_with (k : string) (q : list Item) : option Item :=
  match q with
  | [] => None
  | it :: rest =>
      match last_with k rest with
      | Some x => Some x
      | None => if String.eqb (key_of it) k then Some it else None
      end
  end.

Lemma register_all_lookup (q : list Item) (r : gmap string Item) (k : string) :
  register_all q r !! k
  = match last_with k q with Some it => Some it | None => r !! k end.
Proof.
  revert r. induction q as [|it q IH]; intros r; simpl; [reflexivity|].
  rewrite IH. destruct (last_with k q); [reflexivity|].
  destruct (String.eqb_spec (key_of it) k) as [<-|Hne].
  - apply lookup_insert_eq.
  - by apply lookup_insert_ne.
Qed.

(** After a drain, each key of [requests] holds the last queued item with
    that key, or what it held before when no queued item has it: an earlier
    queued request with the same id is overwritten and its callback can no
    longer be reached. *)
Theorem dequeue_last_registration_wins (s : St) (k : string) :
  requests (fst (dequeue s)) !! k
  = match last_with k (queue s) with Some it => Some it | None => requests s !! k end.
Proof. rewrite dequeue_drained. apply register_all_lookup. Qed.

(** ** Keys of numeric ids *)



(** ** The constructor's options *)



(** ** Out-of-band payloads *)

(** With the iframe ready and nothing queued, [setDefaultEmail] posts the
    JSON-RPC 2.0 payload [SET_DEFAULT_EMAIL] with parameters [[email]] and
    registers the identity callback under the id's key; [showPortis] posts
    [SHOW_PORTIS] with no parameters and registers the given callback. *)
Theorem out_of_band_payloads (id : JVal) (email : string) (f : Cb) (s : St) :
  iframeReady s = true -> queue s = [] ->
  log (fst (setDefaultEmail id email s))
    = (log s ++ [EvPost PT_HANDLE_REQUEST
                   (mkPayload id "2.0" SET_DEFAULT_EMAIL [JStr email])])%list /\
  requests (fst (setDefaultEmail id email s)) !! to_key id
    = Some (mkItem (mkPayload id "2.0" SET_DEFAULT_EMAIL [JStr email]) CbIdentity) /\
  log (fst (showPortis id f s))
    = (log s ++ [EvPost PT_HANDLE_REQUEST (mkPayload id "2.0" SHOW_PORTIS [])])%list /\
  requests (fst (showPortis id f s)) !! to_key id
    = Some (mkItem (mkPayload id "2.0" SHOW_PORTIS []) f).
Proof.
  intros Hr Hq. unfold setDefaultEmail, showPortis, sendGenericPayload.
  rewrite !enqueue_ready_empty by assumption. simpl.
  repeat split; apply lookup_insert_eq.
Qed.

Lemma out_of_band_payloads_witness :
  log (fst (showPortis (JStr "r1") (CbUser 9) s_ready))
  = [EvPost PT_HANDLE_REQUEST (mkPayload (JStr "r1") "2.0" SHOW_PORTIS [])].
Proof.
  exact (proj1 (proj2 (proj2 (out_of_band_payloads (JStr "r1") "me@x.io" (CbUser 9)
                                s_ready eq_refl eq_refl)))).
Defined.
